(** * Gateway file serving: [serveFile] of core/corehttp/gateway_handler_unixfs_file.go

    A shallow embedding of the handler that serves one UnixFS file over HTTP,
    together with the seekable adapter it builds over the file and the
    properties of the request orchestration: which response is produced on
    which path, which header is sent, and when the latency metric is
    recorded. *)

From Stdlib Require Import ZArith Ascii String List Lia.
From Stdlib.Strings Require Import Byte.
From stdpp Require Import gmap strings list.

Open Scope Z_scope.
Open Scope string_scope.

(** ** Values of the Go standard library used by the handler *)

(** A Go [error], identified by its message. *)
Definition Error := string.

(** [io.SeekStart], [io.SeekCurrent], [io.SeekEnd]. *)
Inductive Whence := SeekStart | SeekCurrent | SeekEnd.

Definition StatusBadGateway : Z := 502.
Definition StatusInternalServerError : Z := 500.

(** [strings.HasPrefix(s, prefix)]. *)
Definition HasPrefix (s prefix : string) : bool := String.prefix prefix s.

(** [path.Ext]: the suffix beginning at the final dot in the final
    slash-separated element of the path, empty if there is no dot.  The Go
    loop walks the bytes from the end and stops at the first slash; here the
    walk is from the front, remembering the last dot seen since the last
    slash. *)
Fixpoint ExtFrom (path : string) (found : option string) : string :=
  match path with
  | EmptyString => default "" found
  | String c rest =>
      if Ascii.eqb c "/"%char then ExtFrom rest None
      else if Ascii.eqb c "."%char then ExtFrom rest (Some path)
      else ExtFrom rest found
  end.

Definition Ext (path : string) : string := ExtFrom path None.

(** ** The response writer *)

(** [http.ResponseWriter]: the header map ([http.Header], a map from
    canonical key to the list of its values), the status line once written,
    the body chunks written so far, and whether the writer has been wrapped
    in [statusResponseWriter]. *)
Record ResponseWriter := {
  Header : gmap string (list string);
  status : option Z;
  body : list string;
  statusWrapped : bool
}.

(** [h.Set(key, value)] replaces whatever values the key had. *)
Definition HeaderSet (key value : string) (w : ResponseWriter) : ResponseWriter :=
  {| Header := <[key := [value]]> (Header w);
     status := status w; body := body w; statusWrapped := statusWrapped w |}.

(** [w.WriteHeader(code)]: only the first call sets the status. *)
Definition WriteHeader (code : Z) (w : ResponseWriter) : ResponseWriter :=
  {| Header := Header w;
     status := match status w with Some c => Some c | None => Some code end;
     body := body w; statusWrapped := statusWrapped w |}.

(** [fmt.Fprintln(w, msg)]. *)
Definition Fprintln (msg : string) (w : ResponseWriter) : ResponseWriter :=
  {| Header := Header w; status := status w;
     body := body w ++ [msg ++ String (Ascii.ascii_of_nat 10) ""];
     statusWrapped := statusWrapped w |}.

(** [http.Error(w, msg, code)]: plain-text content type, no sniffing, the
    status and the message as the body. *)
Definition http_Error (msg : string) (code : Z) (w : ResponseWriter) : ResponseWriter :=
  Fprintln msg
    (WriteHeader code
       (HeaderSet "X-Content-Type-Options" "nosniff"
          (HeaderSet "Content-Type" "text/plain; charset=utf-8" w))).

(** [&statusResponseWriter{w}]. *)
Definition wrapStatus (w : ResponseWriter) : ResponseWriter :=
  {| Header := Header w; status := status w; body := body w;
     statusWrapped := true |}.

(** ** Requests, paths and files *)

(** The [Range] header of a request: absent, not a valid byte range, or
    [bytes=first-last]. *)
Inductive RangeHeader := NoRange | BadRange | ByteRange (first last : Z).

(** [*http.Request], as far as the responder looks at it: the method, the
    entity tag of [If-None-Match] and the [Range] header. *)
Record Request := {
  Method : string;
  IfNoneMatch : option string;
  Range : RangeHeader
}.

(** [ipath.Path] and [ipath.Resolved]. *)
Record Path := { PathString : string; Namespace : string }.
Record Resolved := { ResolvedString : string; Cid : string }.

(** [time.Time] in nanoseconds; [time.Duration] likewise. *)
Definition Time := Z.
Definition Duration := Z.

(** [files.File]: whether its dynamic type is [*files.Symlink], what
    [Size()] returns, and the bytes a sequential read from its start
    yields. *)
Record File := {
  isSymlink : bool;
  Size : Z + Error;
  data : list byte
}.

(** Modelled from the spec: the type [lazySeeker] is declared in another
    file of the package; the handler sets its fields [size] and [reader] and
    leaves the rest at zero.  The rest is, after the spec's data model, the
    logical cursor [position] of the seekable stream and the position
    [sourcePos] of the underlying forward-only source. *)
Record lazySeeker := {
  size : Z;
  reader : File;
  position : Z;
  sourcePos : Z
}.

(** ** The handler's effects

    What the handler does to the outside is recorded in order: the calls it
    makes to its collaborators, with their arguments, and the writes to the
    metrics sink. *)
Inductive Event :=
| SpanStart (component name path : string)
| SpanEnd
| AddCacheControlHeaders (contentPath : Path) (cid : string)
| AddContentDispositionHeader (contentPath : Path)
| FileSize
| NewLazySeeker (content : lazySeeker)
| TypeByExtensionCall (ext : string)
| DetectReaderCall (content : lazySeeker)
| SeekCall (content : lazySeeker) (offset : Z) (whence : Whence)
| HttpError (msg : string) (code : Z) (w : ResponseWriter)
| SetContentType (ctype : string)
| WrapStatus
| ServeContentCall (w : ResponseWriter) (name : string) (modtime : Time)
    (content : lazySeeker)
| Observe (label : string) (seconds : Duration).

(** The state a request runs in: the response writer and the record of
    effects so far. *)
Record World := {
  writer : ResponseWriter;
  trace : list Event
}.

(** A Go function body: it runs in the world and either falls through with a
    value or has executed [return]. *)
Definition Go (A : Type) : Type := World → option A * World.

#[export] Instance Go_ret : MRet Go := λ A a σ, (Some a, σ).

#[export] Instance Go_bind : MBind Go := λ A B k m σ,
  match m σ with
  | (Some a, σ') => k a σ'
  | (None, σ') => (None, σ')
  end.

(** The [return] statement. *)
Definition Return {A} : Go A := λ σ, (None, σ).

Definition emit (e : Event) : Go unit := λ σ,
  (Some (), {| writer := writer σ; trace := trace σ ++ [e] |}).

Definition onWriter (f : ResponseWriter → ResponseWriter) : Go unit := λ σ,
  (Some (), {| writer := f (writer σ); trace := trace σ |}).

Definition getWriter : Go ResponseWriter := λ σ, (Some (writer σ), σ).

(** [defer f()]: [f] runs when the body is left, by [return] or by falling
    off its end. *)
Definition defer (f : Go unit) (body : Go unit) : Go unit := λ σ,
  let '(_, σ') := body σ in
  let '(_, σ'') := f σ' in (Some (), σ'').

(** ** Collaborators

    The functions [serveFile] calls and that live elsewhere: in other files of
    the package ([addCacheControlHeaders], [addContentDispositionHeader],
    [ServeContent], the methods of [lazySeeker]) and in libraries
    ([mime.TypeByExtension], [mimetype.DetectReader], [time.Since]).  Those
    that write to the response writer or move the adapter return the new
    state next to their result. *)
Class Collaborators := {
  addCacheControlHeaders :
    ResponseWriter → Request → Path → string → Time * ResponseWriter;
  addContentDispositionHeader :
    ResponseWriter → Request → Path → string * ResponseWriter;
  TypeByExtension : string → string;
  (** the string of the detected MIME, or the error of the read *)
  DetectReader : lazySeeker → (string + Error) * lazySeeker;
  Seek : lazySeeker → Z → Whence → (Z + Error) * lazySeeker;
  (** the status, whether data was sent, the error *)
  ServeContent :
    ResponseWriter → Request → string → Time → lazySeeker →
    (Z * bool * option Error) * ResponseWriter;
  Since : Time → Duration
}.

Section Handler.
Context `{!Collaborators}.

(** [serveFile] returns data behind a file along with HTTP headers based on
    the file itself, its CID and the contentPath used for accessing it. *)
Definition serveFile (r : Request) (resolvedPath : Resolved)
    (contentPath : Path) (file : File) (begin : Time) : Go unit :=
  emit (SpanStart "Gateway" "ServeFile" (ResolvedString resolvedPath));;
  defer (emit SpanEnd) (
    (* Set Cache-Control and read optional Last-Modified time *)
    w ← getWriter;
    emit (AddCacheControlHeaders contentPath (Cid resolvedPath));;
    let '(modtime, w) := addCacheControlHeaders w r contentPath (Cid resolvedPath) in
    onWriter (λ _, w);;
    (* Set Content-Disposition *)
    emit (AddContentDispositionHeader contentPath);;
    let '(name, w) := addContentDispositionHeader w r contentPath in
    onWriter (λ _, w);;
    (* Prepare size value for Content-Length HTTP header *)
    emit FileSize;;
    size ← match Size file with
           | inr err =>
               w ← getWriter;
               emit (HttpError "cannot serve files with unknown sizes"
                       StatusBadGateway w);;
               onWriter (http_Error "cannot serve files with unknown sizes"
                           StatusBadGateway);;
               Return
           | inl size => mret size
           end;
    (* Lazy seeker enables efficient range-requests and HTTP HEAD responses *)
    let content :=
      {| size := size; reader := file; position := 0; sourcePos := 0 |} in
    emit (NewLazySeeker content);;
    (* Calculate deterministic value for Content-Type HTTP header *)
    '(ctype, content) ←
      (if isSymlink file then
         mret ("inode/symlink", content)
       else
         emit (TypeByExtensionCall (Ext name));;
         let ctype := TypeByExtension (Ext name) in
         '(ctype, content) ←
           (if String.eqb ctype "" then
              emit (DetectReaderCall content);;
              let '(mimeType, content) := DetectReader content in
              match mimeType with
              | inr err =>
                  w ← getWriter;
                  emit (HttpError ("cannot detect content-type: " ++ err)
                          StatusInternalServerError w);;
                  onWriter (http_Error ("cannot detect content-type: " ++ err)
                              StatusInternalServerError);;
                  Return
              | inl mimeType =>
                  let ctype := mimeType in
                  emit (SeekCall content 0 SeekStart);;
                  let '(res, content) := Seek content 0 SeekStart in
                  match res with
                  | inr _ =>
                      w ← getWriter;
                      emit (HttpError "seeker can't seek"
                              StatusInternalServerError w);;
                      onWriter (http_Error "seeker can't seek"
                                  StatusInternalServerError);;
                      Return
                  | inl _ => mret (ctype, content)
                  end
              end
            else mret (ctype, content));
         (* Strip the encoding from the HTML Content-Type header and let
            the browser figure it out. *)
         mret (if HasPrefix ctype "text/html;" then "text/html" else ctype,
               content));
    (* Setting explicit Content-Type to avoid mime-type sniffing on the client *)
    emit (SetContentType ctype);;
    onWriter (HeaderSet "Content-Type" ctype);;
    (* special fixup around redirects *)
    emit WrapStatus;;
    onWriter wrapStatus;;
    (* ServeContent will take care of If-None-Match+Etag, Content-Length
       and range requests *)
    w ← getWriter;
    emit (ServeContentCall w name modtime content);;
    let '(_, dataSent, _, w) := ServeContent w r name modtime content in
    onWriter (λ _, w);;
    (* Was response successful? *)
    if dataSent : bool then
      (* Update metrics *)
      emit (Observe (Namespace contentPath) (Since begin))
    else mret ()).
End Handler.

(** The world a handler leaves when it is run on the writer [w] with nothing
    recorded yet. *)
Definition run (w : ResponseWriter) (m : Go unit) : World :=
  snd (m {| writer := w; trace := [] |}).

(** A writer nothing has been written to. *)
Definition freshWriter : ResponseWriter :=
  {| Header := ∅; status := None; body := []; statusWrapped := false |}.

(** ** The seekable adapter over a forward-only source *)

(** Modelled from the spec: a sequential read of the content source, which
    hands out the next [n] bytes after the first [from] ones; the source has
    no other way of being read. *)
Definition sourceRead (f : File) (from n : Z) : list byte :=
  take (Z.to_nat n) (drop (Z.to_nat from) (data f)).

(** Modelled from the spec: discarding reads [n] bytes from the underlying
    source and drops them, which moves the source forward by what was
    read. *)
Definition discard (n : Z) (s : lazySeeker) : lazySeeker :=
  {| size := size s; reader := reader s; position := position s;
     sourcePos :=
       sourcePos s + Z.of_nat (length (sourceRead (reader s) (sourcePos s) n)) |}.

(** Modelled from the spec: a reset drops the source cursor and starts a
    fresh read of the content source from its start. *)
Definition reset (s : lazySeeker) : lazySeeker :=
  {| size := size s; reader := reader s; position := position s;
     sourcePos := 0 |}.

Definition moveTo (target : Z) (s : lazySeeker) : lazySeeker :=
  {| size := size s; reader := reader s; position := target;
     sourcePos := sourcePos s |}.

(** The absolute offset an origin and a relative offset stand for. *)
Definition seekTarget (s : lazySeeker) (offset : Z) (whence : Whence) : Z :=
  match whence with
  | SeekStart => offset
  | SeekCurrent => position s + offset
  | SeekEnd => size s + offset
  end.

(** Modelled from the spec: [lazySeeker.Seek], declared in another file of
    the package.  The origin and the known size give the absolute target; a
    target that is negative or beyond the size is refused; a target at or
    ahead of the logical position is reached by discarding from the source up
    to it; a target behind it by a reset and discarding forward to it. *)
Definition lazySeeker_Seek (s : lazySeeker) (offset : Z) (whence : Whence)
    : (Z + Error) * lazySeeker :=
  let target := seekTarget s offset whence in
  if ((target <? 0) || (size s <? target))%Z then
    (inr "invalid offset", s)
  else if (position s <=? target)%Z then
    (inl target, moveTo target (discard (target - sourcePos s) s))
  else
    (inl target, moveTo target (discard target (reset s))).

(** Modelled from the spec: [lazySeeker.Read] with a buffer of [n] bytes,
    declared in another file of the package.  It reads from the source at the
    cursor, within the window that ends at [size], and moves both cursors by
    what was read. *)
Definition lazySeeker_Read (s : lazySeeker) (n : Z) : list byte * lazySeeker :=
  let got := sourceRead (reader s) (sourcePos s) (Z.min n (size s - position s)) in
  (got,
   {| size := size s; reader := reader s;
      position := position s + Z.of_nat (length got);
      sourcePos := sourcePos s + Z.of_nat (length got) |}).

(** The adapter as [serveFile] constructs it. *)
Definition newLazySeeker (sz : Z) (f : File) : lazySeeker :=
  {| size := sz; reader := f; position := 0; sourcePos := 0 |}.

(** The states the adapter goes through in the hands of its callers. *)
Inductive reachable (sz : Z) (f : File) : lazySeeker → Prop :=
| reach_new : reachable sz f (newLazySeeker sz f)
| reach_Seek s offset whence :
    reachable sz f s → reachable sz f (snd (lazySeeker_Seek s offset whence))
| reach_Read s n :
    reachable sz f s → reachable sz f (snd (lazySeeker_Read s n)).

(** What holds of the adapter between two calls: it is over the same file
    and size, the source stands where the logical cursor does, and the
    cursor is within the content. *)
Definition aligned (sz : Z) (f : File) (s : lazySeeker) : Prop :=
  size s = sz ∧ reader s = f ∧ sourcePos s = position s ∧
  (0 ≤ position s ≤ sz)%Z.

(** ** Reading the outcome of a request off its record *)

(** The call to the range responder, if the handler got that far. *)
Fixpoint served (tr : list Event)
    : option (ResponseWriter * string * Time * lazySeeker) :=
  match tr with
  | [] => None
  | ServeContentCall w name modtime content :: _ =>
      Some (w, name, modtime, content)
  | _ :: tr => served tr
  end.

Definition isObserve (e : Event) : bool :=
  match e with Observe _ _ => true | _ => false end.

(** How many latency observations went to the metrics sink. *)
Definition observations (tr : list Event) : nat :=
  length (List.filter isObserve tr).

Definition isHttpError (e : Event) : bool :=
  match e with HttpError _ _ _ => true | _ => false end.

(** Whether the handler itself answered with an error. *)
Definition aborted (tr : list Event) : bool := existsb isHttpError tr.

Definition touchesContent (e : Event) : bool :=
  match e with
  | DetectReaderCall _ | SeekCall _ _ _ => true
  | _ => false
  end.

(** The effects that come after the size query when it succeeds. *)
Definition pastSizeQuery (e : Event) : bool :=
  match e with
  | NewLazySeeker _ | TypeByExtensionCall _ | DetectReaderCall _
  | SeekCall _ _ _ | SetContentType _ | WrapStatus
  | ServeContentCall _ _ _ _ | Observe _ _ => true
  | _ => false
  end.

Definition isLookup (e : Event) : bool :=
  match e with TypeByExtensionCall _ => true | _ => false end.

(** The value a header has: Go's [h.Get(key)], the first value or empty. *)
Definition HeaderGet (key : string) (w : ResponseWriter) : string :=
  match Header w !! key with
  | Some (v :: _) => v
  | _ => ""
  end.

(** The normalisation [serveFile] applies to the type of a regular file. *)
Definition stripHTMLParams (ctype : string) : string :=
  if HasPrefix ctype "text/html;" then "text/html" else ctype.

Section Intermediate.
Context `{!Collaborators}.
Variables (w0 : ResponseWriter) (r : Request) (resolvedPath : Resolved)
  (contentPath : Path).

(** The values the two header collaborators leave behind them. *)
Definition modtimeOf : Time :=
  fst (addCacheControlHeaders w0 r contentPath (Cid resolvedPath)).
Definition afterCacheControl : ResponseWriter :=
  snd (addCacheControlHeaders w0 r contentPath (Cid resolvedPath)).
Definition nameOf : string :=
  fst (addContentDispositionHeader afterCacheControl r contentPath).
Definition afterHeaders : ResponseWriter :=
  snd (addContentDispositionHeader afterCacheControl r contentPath).

(** The effects every request starts with. *)
Definition prologue : list Event :=
  [ SpanStart "Gateway" "ServeFile" (ResolvedString resolvedPath);
    AddCacheControlHeaders contentPath (Cid resolvedPath);
    AddContentDispositionHeader contentPath;
    FileSize ].

(** The world a request ends in when the handler answers with an error
    after the effects [pre]. *)
Definition failed (msg : string) (code : Z) (pre : list Event) : World :=
  {| writer := http_Error msg code afterHeaders;
     trace := pre ++ [HttpError msg code afterHeaders; SpanEnd] |}.

(** The world a request ends in when the handler hands [content] to the
    responder with the type [ctype], after the effects [pre]. *)
Definition delivered (begin : Time) (ctype : string) (content : lazySeeker)
    (pre : list Event) : World :=
  let w := wrapStatus (HeaderSet "Content-Type" ctype afterHeaders) in
  let '(_, dataSent, _, w') := ServeContent w r nameOf modtimeOf content in
  {| writer := w';
     trace :=
       pre ++
       [SetContentType ctype; WrapStatus;
        ServeContentCall w nameOf modtimeOf content] ++
       (if dataSent : bool
        then [Observe (Namespace contentPath) (Since begin)] else []) ++
       [SpanEnd] |}.

(** What the responder reports for the call the handler made to it. *)
Definition outcome (tr : list Event) : option (Z * bool) :=
  match served tr with
  | Some (w, name, modtime, content) =>
      let '(code, dataSent, _, _) := ServeContent w r name modtime content in
      Some (code, dataSent)
  | None => None
  end.
End Intermediate.

(** The type a regular file resolves to before normalisation: the one its
    extension maps to, or, when there is none, the one sniffed from its
    content by a detection and a rewind that both succeed.  It comes with the
    state the adapter is left in. *)
Inductive resolvesTo `{!Collaborators} (name : string) (content : lazySeeker)
    : string → lazySeeker → Prop :=
| byExtension :
    TypeByExtension (Ext name) ≠ "" →
    resolvesTo name content (TypeByExtension (Ext name)) content
| bySniffing mimeType content' pos content'' :
    TypeByExtension (Ext name) = "" →
    DetectReader content = (inl mimeType, content') →
    Seek content' 0 SeekStart = (inl pos, content'') →
    resolvesTo name content mimeType content''.

(** The ways the resolution of the type fails, with the message the handler
    answers with: the read of the detector fails, or the adapter cannot be
    taken back to the start afterwards. *)
Inductive resolutionFails `{!Collaborators} (name : string)
    (content : lazySeeker) : string → Prop :=
| detectionFails err content' :
    TypeByExtension (Ext name) = "" →
    DetectReader content = (inr err, content') →
    resolutionFails name content ("cannot detect content-type: " ++ err)
| rewindFails mimeType content' err content'' :
    TypeByExtension (Ext name) = "" →
    DetectReader content = (inl mimeType, content') →
    Seek content' 0 SeekStart = (inr err, content'') →
    resolutionFails name content "seeker can't seek".

(** Modelled from the spec: the contract of the range responder
    [ServeContent], declared in another file of the package: it reports no
    transmitted bytes when it answers 304 or 416 and when the request is a
    HEAD. *)
Definition responderContract `{!Collaborators} : Prop :=
  ∀ w r name modtime content,
    let '(code, dataSent, _, _) := ServeContent w r name modtime content in
    code = 304 ∨ code = 416 ∨ Method r = "HEAD" → dataSent = false.

(** The contract of [mimetype.DetectReader]: the MIME it returns is never
    empty, the library falling back on application/octet-stream. *)
Definition detectorContract `{!Collaborators} : Prop :=
  ∀ content mimeType content',
    DetectReader content = (inl mimeType, content') → mimeType ≠ "".

(** ** A gateway to run requests against *)

(** An excerpt of the table [mime.TypeByExtension] starts from. *)
Definition builtinTypes : list (string * string) :=
  [ (".css", "text/css; charset=utf-8");
    (".gif", "image/gif");
    (".htm", "text/html; charset=utf-8");
    (".html", "text/html; charset=utf-8");
    (".jpg", "image/jpeg");
    (".json", "application/json");
    (".pdf", "application/pdf");
    (".png", "image/png");
    (".svg", "image/svg+xml");
    (".xml", "text/xml; charset=utf-8") ].

Definition mime_TypeByExtension (ext : string) : string :=
  match List.find (λ kv, String.eqb (fst kv) ext) builtinTypes with
  | Some kv => snd kv
  | None => ""
  end.

Fixpoint startsWith (magic l : list byte) : bool :=
  match magic, l with
  | [], _ => true
  | m :: magic, b :: l => Byte.eqb m b && startsWith magic l
  | _ :: _, [] => false
  end.

(** The signatures the detector knows here, and its fallback. *)
Definition sniff (header : list byte) : string :=
  if startsWith [xff; xd8; xff] header then "image/jpeg"
  else if startsWith [x89; x50; x4e; x47; x0d; x0a; x1a; x0a] header then "image/png"
  else if startsWith (list_byte_of_string "<!DOCTYPE html") header
       then "text/html; charset=utf-8"
  else if startsWith (list_byte_of_string "<html") header
       then "text/html; charset=utf-8"
  else "application/octet-stream".

Definition readLimit : Z := 3072.

(** [mimetype.DetectReader] over the adapter: it reads a bounded prefix
    through the reader and matches it against the signatures. *)
Definition mimetype_DetectReader (content : lazySeeker)
    : (string + Error) * lazySeeker :=
  let '(header, content) := lazySeeker_Read content readLimit in
  (inl (sniff header), content).

(** [path.Base] for the paths used here: what follows the last slash. *)
Fixpoint Base (path : string) (acc : string) : string :=
  match path with
  | EmptyString => acc
  | String c rest =>
      if Ascii.eqb c "/"%char then Base rest "" else Base rest (acc ++ String c "")
  end.

(** Modelled from the spec: [addCacheControlHeaders], declared in another
    file of the package: it sets the caching headers and the validator and
    returns the modification time to serve with, none for immutable
    content. *)
Definition gateway_addCacheControlHeaders (w : ResponseWriter) (r : Request)
    (contentPath : Path) (cid : string) : Time * ResponseWriter :=
  (0, HeaderSet "Cache-Control" "public, max-age=29030400, immutable"
        (HeaderSet "Etag" cid w)).

(** Modelled from the spec: [addContentDispositionHeader], declared in
    another file of the package: it sets the header that names the file and
    returns that name. *)
Definition gateway_addContentDispositionHeader (w : ResponseWriter)
    (r : Request) (contentPath : Path) : string * ResponseWriter :=
  let name := Base (PathString contentPath) "" in
  (name, HeaderSet "Content-Disposition" ("inline; filename=" ++ name) w).

Definition writeBody (bytes : list byte) (w : ResponseWriter) : ResponseWriter :=
  {| Header := Header w; status := status w;
     body := body w ++ [string_of_list_byte bytes];
     statusWrapped := statusWrapped w |}.

(** Modelled from the spec: [ServeContent], declared in another file of the
    package.  A matching validator gives 304 without a body; a range that is
    malformed or cannot be satisfied gives 416; a range gives 206 and the
    requested bytes, read through the adapter after a seek; otherwise 200 and
    the whole body; a HEAD gets the headers only.  Bytes count as sent when
    a body was written. *)
Definition gateway_ServeContent (w : ResponseWriter) (r : Request)
    (name : string) (modtime : Time) (content : lazySeeker)
    : (Z * bool * option Error) * ResponseWriter :=
  let head := String.eqb (Method r) "HEAD" in
  if match IfNoneMatch r with
     | Some tag => String.eqb tag (HeaderGet "Etag" w)
     | None => false
     end
  then (304, false, None, WriteHeader 304 w)
  else
    match Range r with
    | BadRange => (416, false, None, WriteHeader 416 w)
    | ByteRange first last =>
        if ((first <? 0) || (last <? first) || (size content <=? first))%Z
        then (416, false, None, WriteHeader 416 w)
        else
          let last := Z.min last (size content - 1) in
          match lazySeeker_Seek content first SeekStart with
          | (inr err, _) => (500, false, Some err, WriteHeader 500 w)
          | (inl _, content) =>
              let '(bytes, _) := lazySeeker_Read content (last - first + 1) in
              if head then (206, false, None, WriteHeader 206 w)
              else (206, negb (Nat.eqb (length bytes) 0), None,
                    writeBody bytes (WriteHeader 206 w))
          end
    | NoRange =>
        if head then (200, false, None, WriteHeader 200 w)
        else
          let '(bytes, _) := lazySeeker_Read content (size content) in
          (200, true, None, writeBody bytes (WriteHeader 200 w))
    end.

(** The gateway with a healthy content source and a clock that reads 5ms. *)
Definition gateway : Collaborators :=
  {| addCacheControlHeaders := gateway_addCacheControlHeaders;
     addContentDispositionHeader := gateway_addContentDispositionHeader;
     TypeByExtension := mime_TypeByExtension;
     DetectReader := mimetype_DetectReader;
     Seek := lazySeeker_Seek;
     ServeContent := gateway_ServeContent;
     Since := λ begin, 5000000 - begin |}.

(** The same gateway over a source whose blocks cannot be fetched: the read
    of the detector fails. *)
Definition gatewayUnreadable : Collaborators :=
  {| addCacheControlHeaders := gateway_addCacheControlHeaders;
     addContentDispositionHeader := gateway_addContentDispositionHeader;
     TypeByExtension := mime_TypeByExtension;
     DetectReader := λ content, (inr "context deadline exceeded", content);
     Seek := lazySeeker_Seek;
     ServeContent := gateway_ServeContent;
     Since := λ begin, 5000000 - begin |}.

(** The same gateway over an adapter that cannot go back. *)
Definition gatewayNoRewind : Collaborators :=
  {| addCacheControlHeaders := gateway_addCacheControlHeaders;
     addContentDispositionHeader := gateway_addContentDispositionHeader;
     TypeByExtension := mime_TypeByExtension;
     DetectReader := mimetype_DetectReader;
     Seek := λ content _ _, (inr "unable to restart the source", content);
     ServeContent := gateway_ServeContent;
     Since := λ begin, 5000000 - begin |}.

(** Files and requests to serve. *)
Definition regularFile (bytes : list byte) : File :=
  {| isSymlink := false; Size := inl (Z.of_nat (length bytes)); data := bytes |}.

Definition symlinkTo (target : string) : File :=
  let bytes := list_byte_of_string target in
  {| isSymlink := true; Size := inl (Z.of_nat (length bytes)); data := bytes |}.

Definition unsizedFile (bytes : list byte) : File :=
  {| isSymlink := false; Size := inr "unknown size"; data := bytes |}.

Definition GET : Request :=
  {| Method := "GET"; IfNoneMatch := None; Range := NoRange |}.

Definition HEAD : Request :=
  {| Method := "HEAD"; IfNoneMatch := None; Range := NoRange |}.

Definition ipfsPath (p : string) : Path :=
  {| PathString := p; Namespace := "ipfs" |}.

Definition resolved (p cid : string) : Resolved :=
  {| ResolvedString := p; Cid := cid |}.

Definition jpegBytes : list byte := [xff; xd8; xff; xe0; x00; x10; x4a; x46].
Definition htmlBytes : list byte :=
  list_byte_of_string "<!DOCTYPE html><title>hello</title>".

(** ** More readers of the record *)

Definition isSpanStart (e : Event) : bool :=
  match e with SpanStart _ _ _ => true | _ => false end.

Definition isSpanEnd (e : Event) : bool :=
  match e with SpanEnd => true | _ => false end.

Definition isServeContentCall (e : Event) : bool :=
  match e with ServeContentCall _ _ _ _ => true | _ => false end.

Definition isDetectReaderCall (e : Event) : bool :=
  match e with DetectReaderCall _ => true | _ => false end.

Definition isSetContentType (e : Event) : bool :=
  match e with SetContentType _ => true | _ => false end.

(** How many effects of one kind a record holds. *)
Definition count (kind : Event → bool) (tr : list Event) : nat :=
  length (List.filter kind tr).

(** * Properties *)

(** ** Reading records that grow *)

Lemma served_app pre post :
  served pre = None → served (pre ++ post) = served post.
Proof.
  induction pre as [|e pre IH]; simpl; [reflexivity|].
  destruct e; auto; discriminate.
Qed.

Lemma observations_app pre post :
  observations (pre ++ post) = (observations pre + observations post)%nat.
Proof. unfold observations. now rewrite List.filter_app, length_app. Qed.

Lemma aborted_app pre post :
  aborted (pre ++ post) = aborted pre || aborted post.
Proof. apply existsb_app. Qed.

Lemma stripHTMLParams_nonempty ctype :
  ctype ≠ "" → stripHTMLParams ctype ≠ "".
Proof.
  intros Hne. unfold stripHTMLParams.
  destruct (HasPrefix ctype "text/html;"); [discriminate | assumption].
Qed.

Lemma http_Error_other_headers msg code w key :
  key ≠ "Content-Type" → key ≠ "X-Content-Type-Options" →
  Header (http_Error msg code w) !! key = Header w !! key.
Proof.
  intros Hct Hxc. simpl.
  rewrite lookup_insert_ne by congruence.
  now rewrite lookup_insert_ne by congruence.
Qed.

Lemma http_Error_status msg code w :
  status w = None → status (http_Error msg code w) = Some code.
Proof. intros Hnone. simpl. now rewrite Hnone. Qed.

(** ** The six ways through [serveFile] *)

Ltac step_go :=
  unfold run, serveFile, defer, mbind, Go_bind, mret, Go_ret, emit, onWriter,
    getWriter, Return; simpl.

Section Orchestration.
Context `{!Collaborators}.
Variables (w0 : ResponseWriter) (r : Request) (resolvedPath : Resolved)
  (contentPath : Path) (file : File) (begin : Time).

Abbreviation name := (nameOf w0 r resolvedPath contentPath).
Abbreviation failed := (failed w0 r resolvedPath contentPath).
Abbreviation delivered := (delivered w0 r resolvedPath contentPath begin).
Abbreviation prologue := (prologue resolvedPath contentPath).
Abbreviation serve := (run w0 (serveFile r resolvedPath contentPath file begin)).
Abbreviation modtime := (modtimeOf w0 r resolvedPath contentPath).
Abbreviation afterHeaders := (afterHeaders w0 r resolvedPath contentPath).
Abbreviation handed ctype :=
  (wrapStatus (HeaderSet "Content-Type" ctype afterHeaders)).

Lemma failed_served msg code pre :
  served pre = None → served (trace (failed msg code pre)) = None.
Proof. intros Hpre. simpl. now rewrite served_app. Qed.

Lemma failed_observations msg code pre :
  observations pre = 0%nat → observations (trace (failed msg code pre)) = 0%nat.
Proof. intros Hpre. simpl. now rewrite observations_app, Hpre. Qed.

Lemma failed_aborted msg code pre : aborted (trace (failed msg code pre)) = true.
Proof. simpl. rewrite aborted_app. simpl. apply orb_true_r. Qed.

Lemma delivered_served ctype content pre :
  served pre = None →
  served (trace (delivered ctype content pre))
  = Some (handed ctype, name, modtime, content).
Proof.
  intros Hpre. unfold delivered.
  destruct (ServeContent _ _ _ _ _) as [[[code dataSent] err] w3]; simpl.
  now rewrite served_app.
Qed.

Lemma delivered_outcome ctype content pre :
  served pre = None → observations pre = 0%nat →
  ∃ code dataSent,
    outcome r (trace (delivered ctype content pre)) = Some (code, dataSent) ∧
    observations (trace (delivered ctype content pre))
    = (if dataSent : bool then 1 else 0)%nat.
Proof.
  intros Hpre Hobs. unfold outcome. rewrite delivered_served by assumption.
  unfold delivered.
  destruct (ServeContent _ _ _ _ _) as [[[code dataSent] err] w3]; simpl.
  exists code, dataSent. split; [reflexivity|].
  rewrite observations_app, Hobs. now destruct dataSent.
Qed.

Lemma delivered_not_aborted ctype content pre :
  aborted pre = false → aborted (trace (delivered ctype content pre)) = false.
Proof.
  intros Hpre. unfold delivered.
  destruct (ServeContent _ _ _ _ _) as [[[code dataSent] err] w3]; simpl.
  rewrite aborted_app, Hpre. now destruct dataSent.
Qed.

Lemma delivered_trace ctype content pre :
  ∃ post : list Event,
    trace (delivered ctype content pre)
    = (pre ++ SetContentType ctype :: WrapStatus
           :: ServeContentCall (handed ctype) name modtime content :: post)%list.
Proof.
  unfold delivered.
  destruct (ServeContent _ _ _ _ _) as [[[code dataSent] err] w3]; simpl.
  eauto.
Qed.

Lemma path_unknown_size err :
  Size file = inr err →
  serve = failed "cannot serve files with unknown sizes" StatusBadGateway prologue.
Proof.
  intros Hsize. step_go.
  unfold failed, afterHeaders, afterCacheControl.
  destruct (addCacheControlHeaders _ _ _ _) as [modtime w1]; simpl.
  destruct (addContentDispositionHeader _ _ _) as [nm w2]; simpl.
  rewrite Hsize. reflexivity.
Qed.
Lemma path_symlink sz :
  Size file = inl sz → isSymlink file = true →
  serve = delivered "inode/symlink" (newLazySeeker sz file)
            (prologue ++ [NewLazySeeker (newLazySeeker sz file)]).
Proof.
  intros Hsize Hsym. step_go.
  unfold delivered, afterHeaders, afterCacheControl, nameOf, modtimeOf,
    afterCacheControl.
  destruct (addCacheControlHeaders _ _ _ _) as [modtime w1]; simpl.
  destruct (addContentDispositionHeader _ _ _) as [nm w2]; simpl.
  rewrite Hsize, Hsym; simpl. unfold newLazySeeker.
  destruct (ServeContent _ _ _ _ _) as [[[code dataSent] err] w3].
  destruct dataSent; reflexivity.
Qed.

Lemma path_extension sz :
  Size file = inl sz → isSymlink file = false →
  TypeByExtension (Ext name) ≠ "" →
  serve = delivered (stripHTMLParams (TypeByExtension (Ext name)))
            (newLazySeeker sz file)
            (prologue ++ [NewLazySeeker (newLazySeeker sz file);
                          TypeByExtensionCall (Ext name)]).
Proof.
  intros Hsize Hsym Hext. apply String.eqb_neq in Hext. revert Hext. step_go.
  unfold delivered, afterHeaders, afterCacheControl, nameOf, modtimeOf,
    afterCacheControl, stripHTMLParams.
  destruct (addCacheControlHeaders _ _ _ _) as [modtime w1]; simpl.
  destruct (addContentDispositionHeader _ _ _) as [nm w2]; simpl.
  intros Hext. rewrite Hsize, Hsym; simpl. rewrite Hext; simpl.
  unfold newLazySeeker.
  destruct (ServeContent _ _ _ _ _) as [[[code dataSent] err] w3].
  destruct dataSent; reflexivity.
Qed.

Lemma path_detect_error sz err content' :
  Size file = inl sz → isSymlink file = false →
  TypeByExtension (Ext name) = "" →
  DetectReader (newLazySeeker sz file) = (inr err, content') →
  serve = failed ("cannot detect content-type: " ++ err)
            StatusInternalServerError
            (prologue ++ [NewLazySeeker (newLazySeeker sz file);
                          TypeByExtensionCall (Ext name);
                          DetectReaderCall (newLazySeeker sz file)]).
Proof.
  intros Hsize Hsym Hext. revert Hext. step_go.
  unfold failed, afterHeaders, afterCacheControl, nameOf, afterCacheControl.
  destruct (addCacheControlHeaders _ _ _ _) as [modtime w1]; simpl.
  destruct (addContentDispositionHeader _ _ _) as [nm w2]; simpl.
  intros Hext Hdetect. rewrite Hsize, Hsym; simpl. rewrite Hext; simpl.
  unfold newLazySeeker in Hdetect. rewrite Hdetect. reflexivity.
Qed.

Lemma path_seek_error sz mimeType content' err content'' :
  Size file = inl sz → isSymlink file = false →
  TypeByExtension (Ext name) = "" →
  DetectReader (newLazySeeker sz file) = (inl mimeType, content') →
  Seek content' 0 SeekStart = (inr err, content'') →
  serve = failed "seeker can't seek" StatusInternalServerError
            (prologue ++ [NewLazySeeker (newLazySeeker sz file);
                          TypeByExtensionCall (Ext name);
                          DetectReaderCall (newLazySeeker sz file);
                          SeekCall content' 0 SeekStart]).
Proof.
  intros Hsize Hsym Hext. revert Hext. step_go.
  unfold failed, afterHeaders, afterCacheControl, nameOf, afterCacheControl.
  destruct (addCacheControlHeaders _ _ _ _) as [modtime w1]; simpl.
  destruct (addContentDispositionHeader _ _ _) as [nm w2]; simpl.
  intros Hext Hdetect Hseek. rewrite Hsize, Hsym; simpl. rewrite Hext; simpl.
  unfold newLazySeeker in Hdetect. rewrite Hdetect; simpl.
  rewrite Hseek. reflexivity.
Qed.

Lemma path_sniffed sz mimeType content' pos content'' :
  Size file = inl sz → isSymlink file = false →
  TypeByExtension (Ext name) = "" →
  DetectReader (newLazySeeker sz file) = (inl mimeType, content') →
  Seek content' 0 SeekStart = (inl pos, content'') →
  serve = delivered (stripHTMLParams mimeType) content''
            (prologue ++ [NewLazySeeker (newLazySeeker sz file);
                          TypeByExtensionCall (Ext name);
                          DetectReaderCall (newLazySeeker sz file);
                          SeekCall content' 0 SeekStart]).
Proof.
  intros Hsize Hsym Hext. revert Hext. step_go.
  unfold delivered, afterHeaders, afterCacheControl, nameOf, modtimeOf,
    afterCacheControl, stripHTMLParams.
  destruct (addCacheControlHeaders _ _ _ _) as [modtime w1]; simpl.
  destruct (addContentDispositionHeader _ _ _) as [nm w2]; simpl.
  intros Hext Hdetect Hseek. rewrite Hsize, Hsym; simpl. rewrite Hext; simpl.
  unfold newLazySeeker in Hdetect. rewrite Hdetect; simpl.
  rewrite Hseek; simpl.
  destruct (ServeContent _ _ _ _ _) as [[[code dataSent] e] w3].
  destruct dataSent; reflexivity.
Qed.

(** Every request takes one of the six ways: the handler answers with an
    error itself, or hands the content to the responder with a type that is
    the symlink literal or the normalised resolved type. *)
Lemma serve_cases :
  (∃ msg code pre,
      (code = StatusBadGateway ∨ code = StatusInternalServerError) ∧
      served pre = None ∧ observations pre = 0%nat ∧ aborted pre = false ∧
      (∃ rest, pre = (prologue ++ rest)%list) ∧
      serve = failed msg code pre)
  ∨
  (∃ ctype content pre,
      served pre = None ∧ observations pre = 0%nat ∧ aborted pre = false ∧
      (∃ rest, pre = (prologue ++ rest)%list) ∧
      (isSymlink file = true ∧ ctype = "inode/symlink" ∨
       isSymlink file = false ∧
       ∃ sz t, Size file = inl sz ∧
               resolvesTo name (newLazySeeker sz file) t content ∧
               ctype = stripHTMLParams t) ∧
      serve = delivered ctype content pre).
Proof.
  destruct (Size file) as [sz|err] eqn:Hsize.
  { destruct (isSymlink file) eqn:Hsym.
    { right. eexists _, _, _. split_and!;
        [| | | | | apply (path_symlink sz Hsize Hsym)];
        [reflexivity | reflexivity | reflexivity | eexists; reflexivity |].
      left. now split. }
    destruct (String.eqb_spec (TypeByExtension (Ext name)) "") as [Hext|Hext].
    2:{ right. eexists _, _, _. split_and!;
          [| | | | | apply (path_extension sz Hsize Hsym Hext)];
          [reflexivity | reflexivity | reflexivity | eexists; reflexivity |].
        right. split; [reflexivity|]. exists sz, (TypeByExtension (Ext name)).
        split_and!; [reflexivity | now constructor | reflexivity]. }
    destruct (DetectReader (newLazySeeker sz file)) as [[mimeType|err] content']
      eqn:Hdetect.
    2:{ left. eexists _, _, _. split_and!;
          [| | | | | apply (path_detect_error sz err content' Hsize Hsym Hext Hdetect)];
          [now right | reflexivity | reflexivity | reflexivity
          | eexists; reflexivity]. }
    destruct (Seek content' 0 SeekStart) as [[pos|err] content''] eqn:Hseek.
    2:{ left. eexists _, _, _. split_and!;
          [| | | | | apply (path_seek_error sz _ _ err content''
                              Hsize Hsym Hext Hdetect Hseek)];
          [now right | reflexivity | reflexivity | reflexivity
          | eexists; reflexivity]. }
    right. eexists _, _, _. split_and!;
      [| | | | | apply (path_sniffed sz _ _ pos content''
                          Hsize Hsym Hext Hdetect Hseek)];
      [reflexivity | reflexivity | reflexivity | eexists; reflexivity |].
    right. split; [reflexivity|]. exists sz, mimeType.
    split_and!; [reflexivity | econstructor; eassumption | reflexivity]. }
  left. eexists _, _, _. split_and!;
    [| | | | | apply (path_unknown_size err Hsize)];
    [now left | reflexivity | reflexivity | reflexivity
    | exists nil; now rewrite app_nil_r].
Qed.

Lemma contract_outcome tr code dataSent :
  responderContract → outcome r tr = Some (code, dataSent) →
  code = 304 ∨ code = 416 ∨ Method r = "HEAD" → dataSent = false.
Proof.
  intros Hcontract Hout Hcode. unfold outcome in Hout.
  destruct (served tr) as [[[[w nm] mt] content]|]; [|discriminate].
  specialize (Hcontract w r nm mt content).
  destruct (ServeContent w r nm mt content) as [[[code' dataSent'] err] w'].
  injection Hout as <- <-. auto.
Qed.

Lemma aborted_In tr msg code w :
  In (HttpError msg code w) tr → aborted tr = true.
Proof. intros Hin. apply existsb_exists. eexists. split; [eassumption|reflexivity]. Qed.

(** C1: the latency metric is observed exactly once if and only if the
    responder was reached and reports that body bytes were transmitted, and
    never more than once; it is not observed when the handler answers with an
    error itself (502 or 500), nor, with a responder that keeps to its
    contract, for a 304, a 416 or a HEAD. *)
Theorem latency_observed_iff_data_sent :
  (observations (trace serve) = 1%nat ↔
   ∃ code, outcome r (trace serve) = Some (code, true)) ∧
  (observations (trace serve) ≤ 1)%nat ∧
  (aborted (trace serve) = true → observations (trace serve) = 0%nat) ∧
  (responderContract →
   ∀ code dataSent,
     outcome r (trace serve) = Some (code, dataSent) →
     code = 304 ∨ code = 416 ∨ Method r = "HEAD" →
     observations (trace serve) = 0%nat).
Proof.
  destruct serve_cases
    as [(msg & code & pre & _ & Hs & Ho & _ & _ & ->)
       |(ctype & content & pre & Hs & Ho & Ha & _ & _ & ->)].
  - pose proof (failed_observations msg code pre Ho) as Hobs.
    pose proof (failed_served msg code pre Hs) as Hserved.
    unfold outcome. rewrite Hobs, Hserved. split_and!.
    + split; [discriminate | intros [? ?]; discriminate].
    + lia.
    + reflexivity.
    + reflexivity.
  - destruct (delivered_outcome ctype content pre Hs Ho)
      as (code & dataSent & Hout & Hobs).
    rewrite Hout, Hobs, (delivered_not_aborted _ _ _ Ha). split_and!.
    + destruct dataSent; split; try discriminate; eauto.
      intros [? [=]].
    + destruct dataSent; lia.
    + discriminate.
    + intros Hcontract code' dataSent' [= <- <-] Hcode.
      now rewrite (contract_outcome _ _ _ Hcontract Hout Hcode).
Qed.

(** C5: when the content source fails to report its size, the handler
    answers 502 Bad Gateway and stops: nothing that follows the size query
    happens (no adapter, no resolution of the type, no call to the range
    responder, no observation), and the span is closed. *)
Theorem unknown_size_bad_gateway err :
  Size file = inr err →
  trace serve
  = (prologue ++
     [HttpError "cannot serve files with unknown sizes" StatusBadGateway
        afterHeaders; SpanEnd])%list ∧
  writer serve
  = http_Error "cannot serve files with unknown sizes" StatusBadGateway
      afterHeaders ∧
  (status afterHeaders = None → status (writer serve) = Some 502) ∧
  existsb pastSizeQuery (trace serve) = false ∧
  served (trace serve) = None ∧
  observations (trace serve) = 0%nat.
Proof.
  intros Hsize. rewrite (path_unknown_size err Hsize). split_and!; try reflexivity.
  apply http_Error_status.
Qed.

(** C6: when the resolution of the content type fails, by an error of the
    sniffing read or of the seek back to the start, the handler answers 500
    Internal Server Error with the failure message as the body and stops: the
    range responder is not called and nothing is observed. *)
Theorem resolution_failure_internal_error sz msg :
  Size file = inl sz → isSymlink file = false →
  resolutionFails name (newLazySeeker sz file) msg →
  writer serve = http_Error msg StatusInternalServerError afterHeaders ∧
  (status afterHeaders = None → status (writer serve) = Some 500) ∧
  last (body (writer serve)) = Some (msg ++ String (ascii_of_nat 10) "") ∧
  aborted (trace serve) = true ∧
  served (trace serve) = None ∧
  observations (trace serve) = 0%nat.
Proof.
  intros Hsize Hsym Hfails.
  destruct Hfails as [err content' Hext Hdetect
                     |mimeType content' err content'' Hext Hdetect Hseek].
  - rewrite (path_detect_error sz err content' Hsize Hsym Hext Hdetect).
    split_and!; try reflexivity; [apply http_Error_status | apply last_snoc].
  - rewrite (path_seek_error sz _ _ err content'' Hsize Hsym Hext Hdetect Hseek).
    split_and!; try reflexivity; [apply http_Error_status | apply last_snoc].
Qed.

(** C10: the two header collaborators run before the size query, so every
    error response of the handler is written on the writer as they left it:
    apart from the two headers the error itself sets, each header has the
    value the collaborators gave it. *)
Theorem collaborator_headers_on_errors msg code w :
  In (HttpError msg code w) (trace serve) →
  (∃ rest,
      trace serve
      = (SpanStart "Gateway" "ServeFile" (ResolvedString resolvedPath)
         :: AddCacheControlHeaders contentPath (Cid resolvedPath)
         :: AddContentDispositionHeader contentPath
         :: FileSize :: rest)%list) ∧
  w = afterHeaders ∧
  writer serve = http_Error msg code afterHeaders ∧
  ∀ key, key ≠ "Content-Type" → key ≠ "X-Content-Type-Options" →
         Header (writer serve) !! key = Header afterHeaders !! key.
Proof.
  intros Hin.
  destruct serve_cases
    as [(msg' & code' & pre & _ & _ & _ & Ha & [rest Hpre] & Hserve)
       |(ctype & content & pre & _ & _ & Ha & _ & _ & Hserve)];
    rewrite Hserve in *.
  - unfold failed in Hin; cbn [trace] in Hin.
    apply in_app_iff in Hin as [Hin|Hin].
    { apply aborted_In in Hin. congruence. }
    destruct Hin as [[= <- <- <-]|[[=]|[]]].
    split_and!; [| reflexivity | reflexivity |].
    + rewrite Hpre. eexists. unfold prologue. cbn [trace failed].
      rewrite <- !app_assoc. reflexivity.
    + intros key Hct Hxc. now apply http_Error_other_headers.
  - apply aborted_In in Hin.
    rewrite delivered_not_aborted in Hin by assumption. discriminate.
Qed.

Lemma handed_content_type ctype :
  Header (handed ctype) !! "Content-Type" = Some [ctype].
Proof. simpl. apply lookup_insert_eq. Qed.

(** C2, as amended: for a regular file whose name has an extension the
    registry maps to a non-empty type, the content type sent is that type,
    reduced to text/html when it begins with text/html; and unchanged
    otherwise, whatever the bytes of the file; the content is neither
    sniffed nor sought, and goes to the responder as it was built. *)
Theorem extension_type_wins sz :
  Size file = inl sz → isSymlink file = false →
  TypeByExtension (Ext name) ≠ "" →
  ∃ w,
    served (trace serve) = Some (w, name, modtime, newLazySeeker sz file) ∧
    Header w !! "Content-Type"
    = Some [stripHTMLParams (TypeByExtension (Ext name))] ∧
    (HasPrefix (TypeByExtension (Ext name)) "text/html;" = false →
     Header w !! "Content-Type" = Some [TypeByExtension (Ext name)]) ∧
    existsb touchesContent (trace serve) = false.
Proof.
  intros Hsize Hsym Hext. rewrite (path_extension sz Hsize Hsym Hext).
  eexists. split_and!.
  - now apply delivered_served.
  - apply handed_content_type.
  - intros Hplain. rewrite handed_content_type. unfold stripHTMLParams.
    now rewrite Hplain.
  - unfold delivered.
    destruct (ServeContent _ _ _ _ _) as [[[code dataSent] err] w3].
    now destruct dataSent.
Qed.

(** C3: for a symlink the content type sent is the literal inode/symlink,
    whatever its name and content: the registry is not consulted and the
    content is neither sniffed nor sought. *)
Theorem symlink_type_is_literal sz :
  Size file = inl sz → isSymlink file = true →
  ∃ w,
    served (trace serve) = Some (w, name, modtime, newLazySeeker sz file) ∧
    Header w !! "Content-Type" = Some ["inode/symlink"] ∧
    (∃ post : list Event,
        trace serve
        = (prologue ++
           NewLazySeeker (newLazySeeker sz file)
           :: SetContentType "inode/symlink" :: WrapStatus
           :: ServeContentCall w name modtime (newLazySeeker sz file)
           :: post)%list) ∧
    existsb isLookup (trace serve) = false ∧
    existsb touchesContent (trace serve) = false.
Proof.
  intros Hsize Hsym. rewrite (path_symlink sz Hsize Hsym).
  eexists. split_and!.
  - now apply delivered_served.
  - apply handed_content_type.
  - destruct (delivered_trace "inode/symlink" (newLazySeeker sz file)
                (prologue ++ [NewLazySeeker (newLazySeeker sz file)]))
      as [post ->].
    exists post. now rewrite <- app_assoc.
  - unfold delivered.
    destruct (ServeContent _ _ _ _ _) as [[[code dataSent] err] w3].
    now destruct dataSent.
  - unfold delivered.
    destruct (ServeContent _ _ _ _ _) as [[[code dataSent] err] w3].
    now destruct dataSent.
Qed.

Lemma resolved_delivered sz t content :
  Size file = inl sz → isSymlink file = false →
  resolvesTo name (newLazySeeker sz file) t content →
  ∃ pre, served pre = None ∧
         serve = delivered (stripHTMLParams t) content pre.
Proof.
  intros Hsize Hsym Hres.
  destruct Hres as [Hext|mimeType content' pos content'' Hext Hdetect Hseek].
  - rewrite (path_extension sz Hsize Hsym Hext).
    eexists. split; [|reflexivity]. reflexivity.
  - rewrite (path_sniffed sz _ _ pos content'' Hsize Hsym Hext Hdetect Hseek).
    eexists. split; [|reflexivity]. reflexivity.
Qed.

(** C4: for a regular file whose resolved type, from the extension or from
    sniffing, begins with text/html; the content type sent is exactly
    text/html; a resolved type that does not begin so is sent unchanged. *)
Theorem html_parameters_stripped sz t content :
  Size file = inl sz → isSymlink file = false →
  resolvesTo name (newLazySeeker sz file) t content →
  ∃ w,
    served (trace serve) = Some (w, name, modtime, content) ∧
    (HasPrefix t "text/html;" = true →
     Header w !! "Content-Type" = Some ["text/html"]) ∧
    (HasPrefix t "text/html;" = false →
     Header w !! "Content-Type" = Some [t]).
Proof.
  intros Hsize Hsym Hres.
  destruct (resolved_delivered sz t content Hsize Hsym Hres) as (pre & Hpre & ->).
  eexists. split_and!.
  - now apply delivered_served.
  - intros Hhtml. rewrite handed_content_type. unfold stripHTMLParams.
    now rewrite Hhtml.
  - intros Hplain. rewrite handed_content_type. unfold stripHTMLParams.
    now rewrite Hplain.
Qed.

Lemma resolved_nonempty sz t content :
  detectorContract → resolvesTo name (newLazySeeker sz file) t content →
  t ≠ "".
Proof.
  intros Hdetector [Hext|mimeType content' pos content'' _ Hdetect _];
    [assumption | eapply Hdetector; eassumption].
Qed.

(** C8: whenever the range responder is reached, the Content-Type header was
    set just before, to a non-empty string: the symlink literal, or the
    resolved type of the file (a non-empty registry value, or a sniffed
    value, which the detector never leaves empty) after normalisation. *)
Theorem content_type_explicit_nonempty w nm mt content :
  detectorContract →
  served (trace serve) = Some (w, nm, mt, content) →
  ∃ ctype,
    ctype ≠ "" ∧
    Header w !! "Content-Type" = Some [ctype] ∧
    (∃ pre post : list Event,
        served pre = None ∧
        trace serve
        = (pre ++ SetContentType ctype :: WrapStatus
               :: ServeContentCall w nm mt content :: post)%list) ∧
    (ctype = "inode/symlink" ∨
     ∃ sz t, resolvesTo name (newLazySeeker sz file) t content ∧
             ctype = stripHTMLParams t).
Proof.
  intros Hdetector Hserved.
  destruct serve_cases
    as [(msg & code & pre & _ & Hs & _ & _ & _ & Hserve)
       |(ctype & content' & pre & Hs & _ & _ & _ & Hprov & Hserve)];
    rewrite Hserve in *.
  { rewrite failed_served in Hserved by assumption. discriminate. }
  rewrite delivered_served in Hserved by assumption.
  injection Hserved as <- <- <- <-.
  exists ctype. split_and!.
  - destruct Hprov as [[_ ->]|(_ & sz & t & _ & Hres & ->)]; [discriminate|].
    apply stripHTMLParams_nonempty. eapply resolved_nonempty; eassumption.
  - apply handed_content_type.
  - destruct (delivered_trace ctype content' pre) as [post Hpost]. eauto.
  - destruct Hprov as [[_ ->]|(_ & sz & t & _ & Hres & ->)]; eauto.
Qed.

(** C9: for a regular file whose extension resolves, the adapter reaches
    the range responder as it was constructed: logical position 0, source
    not consumed, no read and no seek in between. *)
Theorem extension_leaves_content_untouched sz :
  Size file = inl sz → isSymlink file = false →
  TypeByExtension (Ext name) ≠ "" →
  ∃ w content,
    served (trace serve) = Some (w, name, modtime, content) ∧
    content = newLazySeeker sz file ∧
    position content = 0 ∧
    sourcePos content = 0 ∧
    (∀ n, sourceRead (reader content) (sourcePos content) n
          = take (Z.to_nat n) (data file)) ∧
    existsb touchesContent (trace serve) = false.
Proof.
  intros Hsize Hsym Hext. rewrite (path_extension sz Hsize Hsym Hext).
  eexists _, _. split_and!; try reflexivity.
  - now apply delivered_served.
  - unfold delivered.
    destruct (ServeContent _ _ _ _ _) as [[[code dataSent] err] w3].
    now destruct dataSent.
Qed.

(** *** Further properties of the orchestration *)

Ltac six_ways :=
  destruct (Size file) as [sz|err] eqn:Hsize;
  [ destruct (isSymlink file) eqn:Hsym;
    [ rewrite (path_symlink sz Hsize Hsym)
    | destruct (String.eqb_spec (TypeByExtension (Ext name)) "") as [Hext|Hext];
      [ destruct (DetectReader (newLazySeeker sz file))
          as [[mimeType|err] content'] eqn:Hdetect;
        [ destruct (Seek content' 0 SeekStart) as [[pos|err] content'']
            eqn:Hseek;
          [ rewrite (path_sniffed sz _ _ pos content''
                       Hsize Hsym Hext Hdetect Hseek)
          | rewrite (path_seek_error sz _ _ err content''
                       Hsize Hsym Hext Hdetect Hseek) ]
        | rewrite (path_detect_error sz err content' Hsize Hsym Hext Hdetect) ]
      | rewrite (path_extension sz Hsize Hsym Hext) ] ]
  | rewrite (path_unknown_size err Hsize) ].

Ltac open_world :=
  unfold failed, delivered;
  try (destruct (ServeContent _ _ _ _ _) as [[[? dataSent] ?] ?];
       destruct dataSent);
  cbn [trace writer].

(** X1: the tracing span brackets every request: the record opens with the
    start of the span, closes with its end, and holds exactly one of each,
    on the error paths as on the others. *)
Theorem span_brackets_request :
  head (trace serve)
  = Some (SpanStart "Gateway" "ServeFile" (ResolvedString resolvedPath)) ∧
  last (trace serve) = Some SpanEnd ∧
  count isSpanStart (trace serve) = 1%nat ∧
  count isSpanEnd (trace serve) = 1%nat.
Proof. six_ways; open_world; repeat split. Qed.

(** X2: every request is answered exactly once: either the handler sends one
    error of its own, or it calls the range responder once, never both and
    never neither. *)
Theorem answered_exactly_once :
  (count isHttpError (trace serve) + count isServeContentCall (trace serve)
   = 1)%nat ∧
  aborted (trace serve) = negb (bool_decide (is_Some (served (trace serve)))).
Proof. six_ways; open_world; split; reflexivity. Qed.

Ltac in_record Hin :=
  unfold prologue in Hin; simpl in Hin;
  repeat (destruct Hin as [Hin|Hin]); try discriminate; try contradiction.

(** X3: the handler sends no error of its own but these two: 502 with the
    fixed message when the size is unknown, and 500 for a regular file of
    known size whose type resolution failed, with the message of that
    failure. *)
Theorem handler_errors_classified msg code w :
  In (HttpError msg code w) (trace serve) →
  (code = StatusBadGateway ∧
   msg = "cannot serve files with unknown sizes" ∧
   ∃ err, Size file = inr err) ∨
  (code = StatusInternalServerError ∧
   isSymlink file = false ∧
   ∃ sz, Size file = inl sz ∧
         resolutionFails name (newLazySeeker sz file) msg).
Proof.
  six_ways; open_world; intros Hin; in_record Hin;
    injection Hin as <- <- <-.
  - right. split_and!; [reflexivity | reflexivity |].
    exists sz. split; [reflexivity|]. eapply rewindFails; eassumption.
  - right. split_and!; [reflexivity | reflexivity |].
    exists sz. split; [reflexivity|].
    apply (detectionFails _ _ err content'); assumption.
  - left. split_and!; [reflexivity | reflexivity |]. now exists err.
Qed.

(** X4: the detector is called exactly for regular files of known size whose
    extension the registry does not know, and then on the adapter as it was
    built. *)
Theorem sniffing_iff_unmapped_regular_file :
  existsb isDetectReaderCall (trace serve)
  = match Size file with
    | inl _ =>
        negb (isSymlink file) && String.eqb (TypeByExtension (Ext name)) ""
    | inr _ => false
    end ∧
  ∀ content,
    In (DetectReaderCall content) (trace serve) →
    ∃ sz, Size file = inl sz ∧ content = newLazySeeker sz file.
Proof.
  six_ways; open_world; (split; [reflexivity|]);
    intros content Hin; in_record Hin;
    injection Hin as <-; now exists sz.
Qed.

(** X5: the handler seeks for one purpose only: back to offset 0 from the
    start, on the adapter as a successful detection left it. *)
Theorem seek_only_rewinds content offset whence :
  In (SeekCall content offset whence) (trace serve) →
  offset = 0 ∧ whence = SeekStart ∧
  isSymlink file = false ∧ TypeByExtension (Ext name) = "" ∧
  ∃ sz mimeType,
    Size file = inl sz ∧
    DetectReader (newLazySeeker sz file) = (inl mimeType, content).
Proof.
  six_ways; open_world; intros Hin; in_record Hin;
    injection Hin as <- <- <-;
    (split_and!; [reflexivity | reflexivity | reflexivity | assumption |]);
    exists sz, mimeType; now split.
Qed.

(** X6: the range responder is called with the name and the modification
    time the two header collaborators returned, on a writer that is wrapped
    and that the handler changed in nothing but the Content-Type header: no
    status line, no body, every other header as the collaborators left
    it. *)
Theorem responder_arguments w nm mt content :
  served (trace serve) = Some (w, nm, mt, content) →
  nm = name ∧ mt = modtime ∧
  statusWrapped w = true ∧
  status w = status afterHeaders ∧
  body w = body afterHeaders ∧
  ∀ key, key ≠ "Content-Type" →
         Header w !! key = Header afterHeaders !! key.
Proof.
  intros Hserved.
  destruct serve_cases
    as [(msg & code & pre & _ & Hs & _ & _ & _ & Hserve)
       |(ctype & content' & pre & Hs & _ & _ & _ & _ & Hserve)];
    rewrite Hserve in Hserved.
  { rewrite failed_served in Hserved by assumption. discriminate. }
  rewrite delivered_served in Hserved by assumption.
  injection Hserved as <- <- <- <-.
  split_and!; try reflexivity.
  intros key Hkey. simpl. now rewrite lookup_insert_ne by congruence.
Qed.

(** X7: once the range responder has returned, the handler leaves the
    response alone: the writer the request ends with is the one the
    responder returned. *)
Theorem responder_has_last_word w nm mt content :
  served (trace serve) = Some (w, nm, mt, content) →
  writer serve = snd (ServeContent w r nm mt content).
Proof.
  intros Hserved.
  destruct serve_cases
    as [(msg & code & pre & _ & Hs & _ & _ & _ & Hserve)
       |(ctype & content' & pre & Hs & _ & _ & _ & _ & Hserve)];
    rewrite Hserve in *.
  { rewrite failed_served in Hserved by assumption. discriminate. }
  rewrite delivered_served in Hserved by assumption.
  injection Hserved as <- <- <- <-.
  unfold delivered.
  now destruct (ServeContent _ _ _ _ _) as [[[code dataSent] e] w3].
Qed.


(** X9: an error response of the handler is plain text that the client must
    not sniff, and the type resolved for the file is never set on it. *)
Theorem error_response_is_plain_text :
  aborted (trace serve) = true →
  Header (writer serve) !! "Content-Type"
  = Some ["text/plain; charset=utf-8"] ∧
  Header (writer serve) !! "X-Content-Type-Options" = Some ["nosniff"] ∧
  existsb isSetContentType (trace serve) = false.
Proof.
  six_ways; open_world; intros Haborted; try discriminate;
    (split_and!; [| apply lookup_insert_eq | reflexivity]);
    simpl; rewrite lookup_insert_ne by discriminate; apply lookup_insert_eq.
Qed.

(** X10: the registry is consulted exactly for regular files of known size,
    and with the extension of the name the content-disposition collaborator
    returned. *)
Theorem lookup_by_disposition_name :
  existsb isLookup (trace serve)
  = match Size file with
    | inl _ => negb (isSymlink file)
    | inr _ => false
    end ∧
  ∀ ext, In (TypeByExtensionCall ext) (trace serve) → ext = Ext name.
Proof.
  six_ways; open_world; (split; [reflexivity|]);
    intros ext Hin; in_record Hin; now injection Hin as <-.
Qed.

(** X11: an adapter is built only once the file has reported its size; it
    is over the file itself, with that size, and both cursors at zero. *)
Theorem adapter_built_from_reported_size content :
  In (NewLazySeeker content) (trace serve) →
  ∃ sz, Size file = inl sz ∧
        content = newLazySeeker sz file ∧
        size content = sz ∧ reader content = file ∧
        position content = 0 ∧ sourcePos content = 0.
Proof.
  six_ways; open_world; intros Hin; in_record Hin;
    injection Hin as <-; exists sz; now repeat split.
Qed.

(** X12: the adapter the range responder receives is the one that was built,
    untouched when the file is a symlink or its extension is known, and
    otherwise as the rewind after a successful detection left it. *)
Theorem responder_content_provenance w nm mt content :
  served (trace serve) = Some (w, nm, mt, content) →
  ∃ sz,
    Size file = inl sz ∧
    (content = newLazySeeker sz file ∧
     (isSymlink file = true ∨ TypeByExtension (Ext name) ≠ "")
     ∨
     isSymlink file = false ∧ TypeByExtension (Ext name) = "" ∧
     ∃ mimeType content' pos,
       DetectReader (newLazySeeker sz file) = (inl mimeType, content') ∧
       Seek content' 0 SeekStart = (inl pos, content)).
Proof.
  six_ways; intros Hserved;
    try (rewrite failed_served in Hserved by reflexivity; discriminate);
    rewrite delivered_served in Hserved by reflexivity;
    injection Hserved as <- <- <- <-; exists sz; (split; [reflexivity|]).
  - left. split; [reflexivity | now left].
  - right. split_and!; [reflexivity | assumption |]. eauto.
  - left. split; [reflexivity | now right].
Qed.
End Orchestration.

(** ** The seekable adapter *)

Section Adapter.
Variables (sz : Z) (f : File).
Hypothesis size_known : sz = Z.of_nat (length (data f)).
Abbreviation aligned := (aligned sz f).

Lemma sourceRead_length from n :
  (0 ≤ from)%Z → (0 ≤ n)%Z → (from + n ≤ sz)%Z →
  Z.of_nat (length (sourceRead f from n)) = n.
Proof.
  intros Hfrom Hn Hend. unfold sourceRead.
  rewrite length_take, length_drop. lia.
Qed.

Lemma aligned_Seek s offset whence :
  aligned s → aligned (snd (lazySeeker_Seek s offset whence)).
Proof.
  intros (Hsize & Hreader & Hsrc & Hpos). unfold lazySeeker_Seek.
  set (target := seekTarget s offset whence).
  destruct (Z.ltb_spec target 0) as [Hneg|Hnonneg]; simpl.
  { now repeat split. }
  destruct (Z.ltb_spec (size s) target) as [Hbeyond|Hwithin]; simpl.
  { now repeat split. }
  destruct (Z.leb_spec (position s) target) as [Hahead|Hbehind];
    unfold moveTo, discard, reset; simpl.
  - repeat split; simpl; try assumption; try lia.
    rewrite Hreader, sourceRead_length; lia.
  - repeat split; simpl; try assumption; try lia.
    rewrite Hreader, sourceRead_length; lia.
Qed.

Lemma aligned_Read s n :
  aligned s → aligned (snd (lazySeeker_Read s n)).
Proof.
  intros (Hsize & Hreader & Hsrc & Hpos). unfold lazySeeker_Read; simpl.
  repeat split; simpl; try assumption; try lia.
  rewrite Hreader. unfold sourceRead. rewrite length_take, length_drop. lia.
Qed.

Lemma reachable_aligned s : reachable sz f s → aligned s.
Proof.
  induction 1 as [|s offset whence _ IH|s n _ IH].
  - unfold aligned; simpl. repeat split; lia.
  - now apply aligned_Seek.
  - now apply aligned_Read.
Qed.

Lemma take_within {A} (l : list A) (n : Z) :
  take (Z.to_nat (Z.min n (Z.of_nat (length l)))) l = take (Z.to_nat n) l.
Proof.
  destruct (Z.le_ge_cases n (Z.of_nat (length l))) as [Hle|Hge].
  - now rewrite Z.min_l.
  - rewrite Z.min_r by assumption. rewrite !take_ge by lia. reflexivity.
Qed.

(** C7: on the adapter over a source of known size, in any state its callers
    can bring it to, a seek whose target lies within [0, size] succeeds and
    returns the target, and the read that follows returns the bytes of the
    content from that offset on, as many as asked for or as remain; this
    holds as well when the target is behind the cursor. *)
Theorem seek_then_read s offset whence n :
  reachable sz f s →
  (0 ≤ seekTarget s offset whence ≤ sz)%Z →
  ∃ s',
    lazySeeker_Seek s offset whence = (inl (seekTarget s offset whence), s') ∧
    position s' = seekTarget s offset whence ∧
    fst (lazySeeker_Read s' n)
    = take (Z.to_nat n) (drop (Z.to_nat (seekTarget s offset whence)) (data f)) ∧
    position (snd (lazySeeker_Read s' n))
    = seekTarget s offset whence
      + Z.of_nat (length (fst (lazySeeker_Read s' n))).
Proof.
  intros Hreach Htarget.
  pose proof (aligned_Seek s offset whence (reachable_aligned s Hreach))
    as (Hsize' & Hreader' & Hsrc' & _).
  destruct (reachable_aligned s Hreach) as (Hsize & Hreader & Hsrc & Hpos).
  revert Hsize' Hreader' Hsrc'. unfold lazySeeker_Seek.
  set (target := seekTarget s offset whence) in *.
  destruct (Z.ltb_spec target 0) as [Hneg|_]; [lia|].
  destruct (Z.ltb_spec (size s) target) as [Hbeyond|_]; [lia|].
  cbn [orb].
  destruct (Z.leb_spec (position s) target) as [Hahead|Hbehind];
    cbn [snd]; intros Hsize' Hreader' Hsrc'; eexists; (split; [reflexivity|]);
    (split; [reflexivity|]); unfold lazySeeker_Read; cbn [fst snd position];
    rewrite Hsize', Hreader', Hsrc'; cbn [position moveTo]; unfold sourceRead;
    (split; [|reflexivity]);
    replace (sz - target) with (Z.of_nat (length (drop (Z.to_nat target) (data f))))
      by (rewrite length_drop; lia);
    apply take_within.
Qed.
End Adapter.

(** ** The gateway keeps to the contracts *)

Lemma gateway_responderContract : @responderContract gateway.
Proof.
  intros w r name modtime content. simpl. unfold gateway_ServeContent.
  destruct (match IfNoneMatch r with Some _ => _ | None => _ end).
  { reflexivity. }
  destruct (Range r) as [| |first last].
  - destruct (String.eqb_spec (Method r) "HEAD") as [Hhead|Hget].
    + reflexivity.
    + destruct (lazySeeker_Read content (size content)) as [bytes c].
      intros [[=]|[[=]|?]]; contradiction.
  - reflexivity.
  - destruct (_ || _ || _)%bool; [reflexivity|].
    destruct (lazySeeker_Seek content first SeekStart) as [[pos|err] c];
      [|intros [[=]|[[=]|?]]; reflexivity].
    destruct (lazySeeker_Read c _) as [bytes c'].
    destruct (String.eqb_spec (Method r) "HEAD") as [Hhead|Hget].
    + reflexivity.
    + intros [[=]|[[=]|?]]; contradiction.
Qed.

Lemma sniff_nonempty header : sniff header ≠ "".
Proof.
  unfold sniff. repeat (destruct (startsWith _ header); [discriminate|]).
  discriminate.
Qed.

Lemma gateway_detectorContract : @detectorContract gateway.
Proof.
  intros content mimeType content'. simpl. unfold mimetype_DetectReader.
  destruct (lazySeeker_Read content readLimit) as [header c].
  intros [= <- _]. apply sniff_nonempty.
Qed.

(** ** The theorems at work on the gateway *)

Lemma latency_observed_iff_data_sent_witness :
  let tr :=
    trace (run freshWriter
             (@serveFile gateway HEAD (resolved "/ipfs/Qm/cat.jpg" "Qm")
                (ipfsPath "/ipfs/Qm/cat.jpg") (regularFile jpegBytes) 0)) in
  @outcome gateway HEAD tr = Some (200, false) ∧ observations tr = 0%nat.
Proof.
  intros tr.
  assert (Hout : @outcome gateway HEAD tr = Some (200, false))
    by (vm_compute; reflexivity).
  split; [exact Hout|].
  exact (proj2 (proj2 (proj2
           (@latency_observed_iff_data_sent gateway freshWriter HEAD
              (resolved "/ipfs/Qm/cat.jpg" "Qm") (ipfsPath "/ipfs/Qm/cat.jpg")
              (regularFile jpegBytes) 0)))
           gateway_responderContract 200 false Hout
           (or_intror (or_intror eq_refl))).
Defined.

Lemma unknown_size_bad_gateway_witness :
  let σ :=
    run freshWriter
      (@serveFile gateway GET (resolved "/ipfs/Qm/cat.jpg" "Qm")
         (ipfsPath "/ipfs/Qm/cat.jpg") (unsizedFile jpegBytes) 0) in
  Size (unsizedFile jpegBytes) = inr "unknown size" ∧
  status (writer σ) = Some 502 ∧ observations (trace σ) = 0%nat.
Proof.
  intros σ.
  destruct (@unknown_size_bad_gateway gateway freshWriter GET
              (resolved "/ipfs/Qm/cat.jpg" "Qm") (ipfsPath "/ipfs/Qm/cat.jpg")
              (unsizedFile jpegBytes) 0 "unknown size" eq_refl)
    as (_ & _ & Hstatus & _ & _ & Hobs).
  split; [reflexivity|]. split; [apply Hstatus; reflexivity | exact Hobs].
Defined.

(** A file named index.html is sent as text/html although the registry maps
    its extension to text/html; charset=utf-8: the type sent is not the
    registry's value. *)
Lemma extension_type_literal_counterexample :
  let file := regularFile htmlBytes in
  let σ :=
    run freshWriter
      (@serveFile gateway GET (resolved "/ipfs/Qm/index.html" "Qm")
         (ipfsPath "/ipfs/Qm/index.html") file 0) in
  isSymlink file = false ∧
  ∃ w name modtime content,
    served (trace σ) = Some (w, name, modtime, content) ∧
    name = "index.html" ∧
    @TypeByExtension gateway (Ext name) = "text/html; charset=utf-8" ∧
    Header w !! "Content-Type" = Some ["text/html"] ∧
    Header w !! "Content-Type" ≠ Some [@TypeByExtension gateway (Ext name)].
Proof.
  intros file σ. split; [reflexivity|].
  destruct (served (trace σ)) as [[[[w name] modtime] content]|] eqn:Hserved;
    [|vm_compute in Hserved; discriminate].
  exists w, name, modtime, content. split; [reflexivity|].
  vm_compute in Hserved. injection Hserved as <- <- <- <-.
  split_and!; [reflexivity | reflexivity | reflexivity |].
  vm_compute. discriminate.
Qed.

Lemma extension_type_wins_witness :
  let file := regularFile jpegBytes in
  let σ :=
    run freshWriter
      (@serveFile gateway GET (resolved "/ipfs/Qm/index.html" "Qm")
         (ipfsPath "/ipfs/Qm/index.html") file 0) in
  Size file = inl 8 ∧ isSymlink file = false ∧
  @TypeByExtension gateway (Ext "index.html") ≠ "" ∧
  ∃ w,
    served (trace σ)
    = Some (w, "index.html", 0, newLazySeeker 8 file) ∧
    Header w !! "Content-Type" = Some ["text/html"].
Proof.
  intros file σ.
  assert (Hext : @TypeByExtension gateway (Ext "index.html") ≠ "")
    by (vm_compute; discriminate).
  split_and!; [reflexivity | reflexivity | exact Hext |].
  destruct (@extension_type_wins gateway freshWriter GET
              (resolved "/ipfs/Qm/index.html" "Qm")
              (ipfsPath "/ipfs/Qm/index.html") file 0 8 eq_refl eq_refl Hext)
    as (w & Hserved & Htype & _).
  exists w. split; [exact Hserved | exact Htype].
Defined.

Lemma symlink_type_is_literal_witness :
  let file := symlinkTo "../pictures/cat.png" in
  let σ :=
    run freshWriter
      (@serveFile gateway GET (resolved "/ipfs/Qm/cat.png" "Qm")
         (ipfsPath "/ipfs/Qm/cat.png") file 0) in
  Size file = inl 19 ∧ isSymlink file = true ∧
  ∃ w,
    served (trace σ) = Some (w, "cat.png", 0, newLazySeeker 19 file) ∧
    Header w !! "Content-Type" = Some ["inode/symlink"].
Proof.
  intros file σ. split_and!; [reflexivity | reflexivity |].
  destruct (@symlink_type_is_literal gateway freshWriter GET
              (resolved "/ipfs/Qm/cat.png" "Qm") (ipfsPath "/ipfs/Qm/cat.png")
              file 0 19 eq_refl eq_refl)
    as (w & Hserved & Htype & _).
  exists w. split; [exact Hserved | exact Htype].
Defined.

Lemma html_parameters_stripped_witness :
  let file := regularFile htmlBytes in
  let σ :=
    run freshWriter
      (@serveFile gateway GET (resolved "/ipfs/Qm/page" "Qm")
         (ipfsPath "/ipfs/Qm/page") file 0) in
  Size file = inl 35 ∧ isSymlink file = false ∧
  @resolvesTo gateway "page" (newLazySeeker 35 file)
    "text/html; charset=utf-8" (newLazySeeker 35 file) ∧
  ∃ w,
    served (trace σ) = Some (w, "page", 0, newLazySeeker 35 file) ∧
    Header w !! "Content-Type" = Some ["text/html"].
Proof.
  intros file σ.
  assert (Hres : @resolvesTo gateway "page" (newLazySeeker 35 file)
                   "text/html; charset=utf-8" (newLazySeeker 35 file))
    by (eapply (@bySniffing gateway); reflexivity).
  split_and!; [reflexivity | reflexivity | exact Hres |].
  destruct (@html_parameters_stripped gateway freshWriter GET
              (resolved "/ipfs/Qm/page" "Qm") (ipfsPath "/ipfs/Qm/page")
              file 0 35 _ _ eq_refl eq_refl Hres)
    as (w & Hserved & Hhtml & _).
  exists w. split; [exact Hserved | apply Hhtml; reflexivity].
Defined.

Lemma resolution_failure_internal_error_witness :
  let file := regularFile htmlBytes in
  let σ :=
    run freshWriter
      (@serveFile gatewayUnreadable GET (resolved "/ipfs/Qm/page" "Qm")
         (ipfsPath "/ipfs/Qm/page") file 0) in
  Size file = inl 35 ∧ isSymlink file = false ∧
  @resolutionFails gatewayUnreadable "page" (newLazySeeker 35 file)
    "cannot detect content-type: context deadline exceeded" ∧
  status (writer σ) = Some 500 ∧
  served (trace σ) = None ∧ observations (trace σ) = 0%nat.
Proof.
  intros file σ.
  assert (Hfails : @resolutionFails gatewayUnreadable "page"
                     (newLazySeeker 35 file)
                     "cannot detect content-type: context deadline exceeded")
    by (eapply (@detectionFails gatewayUnreadable _ _ "context deadline exceeded");
        reflexivity).
  split_and!; [reflexivity | reflexivity | exact Hfails | | |];
    destruct (@resolution_failure_internal_error gatewayUnreadable freshWriter
                GET (resolved "/ipfs/Qm/page" "Qm") (ipfsPath "/ipfs/Qm/page")
                file 0 35 _ eq_refl eq_refl Hfails)
      as (_ & Hstatus & _ & _ & Hserved & Hobs);
    [apply Hstatus; reflexivity | exact Hserved | exact Hobs].
Defined.

Lemma seek_then_read_witness :
  let file := regularFile htmlBytes in
  let s := snd (lazySeeker_Read (newLazySeeker 35 file) 20) in
  position s = 20 ∧
  ∃ s',
    lazySeeker_Seek s 2 SeekStart = (inl 2, s') ∧
    fst (lazySeeker_Read s' 7) = list_byte_of_string "DOCTYPE".
Proof.
  intros file s. split; [reflexivity|].
  assert (Htarget : (0 ≤ seekTarget s 2 SeekStart ≤ 35)%Z) by (simpl; lia).
  destruct (seek_then_read 35 file eq_refl s 2 SeekStart 7
              (reach_Read 35 file _ 20 (reach_new 35 file)) Htarget)
    as (s' & Hseek & _ & Hread & _).
  exists s'. split; [exact Hseek | exact Hread].
Defined.

Lemma content_type_explicit_nonempty_witness :
  let file := regularFile jpegBytes in
  let σ :=
    run freshWriter
      (@serveFile gateway GET (resolved "/ipfs/Qm/cat" "Qm")
         (ipfsPath "/ipfs/Qm/cat") file 0) in
  let w :=
    wrapStatus
      (HeaderSet "Content-Type" "image/jpeg"
         (@afterHeaders gateway freshWriter GET (resolved "/ipfs/Qm/cat" "Qm")
            (ipfsPath "/ipfs/Qm/cat"))) in
  served (trace σ) = Some (w, "cat", 0, newLazySeeker 8 file) ∧
  ∃ ctype, ctype ≠ "" ∧ Header w !! "Content-Type" = Some [ctype].
Proof.
  intros file σ w.
  assert (Hserved : served (trace σ) = Some (w, "cat", 0, newLazySeeker 8 file))
    by (vm_compute; reflexivity).
  split; [exact Hserved|].
  destruct (@content_type_explicit_nonempty gateway freshWriter GET
              (resolved "/ipfs/Qm/cat" "Qm") (ipfsPath "/ipfs/Qm/cat") file 0
              w "cat" 0 (newLazySeeker 8 file)
              gateway_detectorContract Hserved)
    as (ctype & Hne & Htype & _).
  exists ctype. split; [exact Hne | exact Htype].
Defined.

Lemma extension_leaves_content_untouched_witness :
  let file := regularFile jpegBytes in
  let σ :=
    run freshWriter
      (@serveFile gateway GET (resolved "/ipfs/Qm/cat.png" "Qm")
         (ipfsPath "/ipfs/Qm/cat.png") file 0) in
  Size file = inl 8 ∧ isSymlink file = false ∧
  @TypeByExtension gateway (Ext "cat.png") ≠ "" ∧
  ∃ w content,
    served (trace σ) = Some (w, "cat.png", 0, content) ∧
    position content = 0 ∧ sourcePos content = 0.
Proof.
  intros file σ.
  assert (Hext : @TypeByExtension gateway (Ext "cat.png") ≠ "")
    by (vm_compute; discriminate).
  split_and!; [reflexivity | reflexivity | exact Hext |].
  destruct (@extension_leaves_content_untouched gateway freshWriter GET
              (resolved "/ipfs/Qm/cat.png" "Qm") (ipfsPath "/ipfs/Qm/cat.png")
              file 0 8 eq_refl eq_refl Hext)
    as (w & content & Hserved & _ & Hpos & Hsrc & _).
  exists w, content. split_and!; [exact Hserved | exact Hpos | exact Hsrc].
Defined.

Lemma collaborator_headers_on_errors_witness :
  let σ :=
    run freshWriter
      (@serveFile gateway GET (resolved "/ipfs/Qm/cat.jpg" "Qm")
         (ipfsPath "/ipfs/Qm/cat.jpg") (unsizedFile jpegBytes) 0) in
  let w :=
    @afterHeaders gateway freshWriter GET (resolved "/ipfs/Qm/cat.jpg" "Qm")
      (ipfsPath "/ipfs/Qm/cat.jpg") in
  In (HttpError "cannot serve files with unknown sizes" 502 w) (trace σ) ∧
  Header (writer σ) !! "Cache-Control" = Header w !! "Cache-Control" ∧
  Header (writer σ) !! "Content-Disposition" = Header w !! "Content-Disposition".
Proof.
  intros σ w.
  assert (Hin : In (HttpError "cannot serve files with unknown sizes" 502 w)
                  (trace σ))
    by (do 4 right; left; reflexivity).
  split; [exact Hin|].
  destruct (@collaborator_headers_on_errors gateway freshWriter GET
              (resolved "/ipfs/Qm/cat.jpg" "Qm") (ipfsPath "/ipfs/Qm/cat.jpg")
              (unsizedFile jpegBytes) 0 _ _ _ Hin)
    as (_ & _ & _ & Hkeep).
  split; apply Hkeep; discriminate.
Defined.

(** ** The further properties at work on the gateway *)

Lemma handler_errors_classified_witness :
  let file := regularFile htmlBytes in
  let σ :=
    run freshWriter
      (@serveFile gatewayNoRewind GET (resolved "/ipfs/Qm/page" "Qm")
         (ipfsPath "/ipfs/Qm/page") file 0) in
  let w :=
    @afterHeaders gatewayNoRewind freshWriter GET (resolved "/ipfs/Qm/page" "Qm")
      (ipfsPath "/ipfs/Qm/page") in
  In (HttpError "seeker can't seek" 500 w) (trace σ) ∧
  @resolutionFails gatewayNoRewind "page" (newLazySeeker 35 file)
    "seeker can't seek".
Proof.
  intros file σ w.
  assert (Hin : In (HttpError "seeker can't seek" 500 w) (trace σ))
    by (do 8 right; left; reflexivity).
  split; [exact Hin|].
  destruct (@handler_errors_classified gatewayNoRewind freshWriter GET
              (resolved "/ipfs/Qm/page" "Qm") (ipfsPath "/ipfs/Qm/page")
              file 0 _ _ _ Hin)
    as [(Hcode & _)|(_ & _ & sz & Hsize & Hfails)].
  - discriminate Hcode.
  - injection Hsize as <-. exact Hfails.
Defined.

Lemma sniffing_iff_unmapped_regular_file_witness :
  let file := regularFile jpegBytes in
  let σ :=
    run freshWriter
      (@serveFile gateway GET (resolved "/ipfs/Qm/cat" "Qm")
         (ipfsPath "/ipfs/Qm/cat") file 0) in
  In (DetectReaderCall (newLazySeeker 8 file)) (trace σ) ∧
  existsb isDetectReaderCall (trace σ) = true ∧
  ∃ sz, Size file = inl sz ∧ newLazySeeker 8 file = newLazySeeker sz file.
Proof.
  intros file σ.
  assert (Hin : In (DetectReaderCall (newLazySeeker 8 file)) (trace σ))
    by (do 6 right; left; reflexivity).
  destruct (@sniffing_iff_unmapped_regular_file gateway freshWriter GET
              (resolved "/ipfs/Qm/cat" "Qm") (ipfsPath "/ipfs/Qm/cat") file 0)
    as (Hcalled & Hon).
  split_and!; [exact Hin | exact Hcalled | exact (Hon _ Hin)].
Defined.

Lemma seek_only_rewinds_witness :
  let file := regularFile jpegBytes in
  let σ :=
    run freshWriter
      (@serveFile gateway GET (resolved "/ipfs/Qm/cat" "Qm")
         (ipfsPath "/ipfs/Qm/cat") file 0) in
  let content := snd (mimetype_DetectReader (newLazySeeker 8 file)) in
  In (SeekCall content 0 SeekStart) (trace σ) ∧
  position content = 8 ∧
  ∃ sz mimeType,
    Size file = inl sz ∧
    mimetype_DetectReader (newLazySeeker sz file) = (inl mimeType, content).
Proof.
  intros file σ content.
  assert (Hin : In (SeekCall content 0 SeekStart) (trace σ))
    by (do 7 right; left; reflexivity).
  split_and!; [exact Hin | reflexivity |].
  destruct (@seek_only_rewinds gateway freshWriter GET
              (resolved "/ipfs/Qm/cat" "Qm") (ipfsPath "/ipfs/Qm/cat") file 0
              _ _ _ Hin)
    as (_ & _ & _ & _ & Hdetected).
  exact Hdetected.
Defined.

Lemma responder_arguments_witness :
  let file := regularFile jpegBytes in
  let σ :=
    run freshWriter
      (@serveFile gateway GET (resolved "/ipfs/Qm/cat" "Qm")
         (ipfsPath "/ipfs/Qm/cat") file 0) in
  let before :=
    @afterHeaders gateway freshWriter GET (resolved "/ipfs/Qm/cat" "Qm")
      (ipfsPath "/ipfs/Qm/cat") in
  let w := wrapStatus (HeaderSet "Content-Type" "image/jpeg" before) in
  served (trace σ) = Some (w, "cat", 0, newLazySeeker 8 file) ∧
  statusWrapped w = true ∧
  Header w !! "Cache-Control" = Header before !! "Cache-Control".
Proof.
  intros file σ before w.
  assert (Hserved : served (trace σ) = Some (w, "cat", 0, newLazySeeker 8 file))
    by (vm_compute; reflexivity).
  destruct (@responder_arguments gateway freshWriter GET
              (resolved "/ipfs/Qm/cat" "Qm") (ipfsPath "/ipfs/Qm/cat") file 0
              _ _ _ _ Hserved)
    as (_ & _ & Hwrapped & _ & _ & Hkeep).
  split_and!; [exact Hserved | exact Hwrapped | apply Hkeep; discriminate].
Defined.

Lemma responder_has_last_word_witness :
  let file := regularFile jpegBytes in
  let σ :=
    run freshWriter
      (@serveFile gateway GET (resolved "/ipfs/Qm/cat" "Qm")
         (ipfsPath "/ipfs/Qm/cat") file 0) in
  let w :=
    wrapStatus
      (HeaderSet "Content-Type" "image/jpeg"
         (@afterHeaders gateway freshWriter GET (resolved "/ipfs/Qm/cat" "Qm")
            (ipfsPath "/ipfs/Qm/cat"))) in
  served (trace σ) = Some (w, "cat", 0, newLazySeeker 8 file) ∧
  writer σ = snd (gateway_ServeContent w GET "cat" 0 (newLazySeeker 8 file)).
Proof.
  intros file σ w.
  assert (Hserved : served (trace σ) = Some (w, "cat", 0, newLazySeeker 8 file))
    by (vm_compute; reflexivity).
  split; [exact Hserved|].
  exact (@responder_has_last_word gateway freshWriter GET
           (resolved "/ipfs/Qm/cat" "Qm") (ipfsPath "/ipfs/Qm/cat") file 0
           _ _ _ _ Hserved).
Defined.


Lemma error_response_is_plain_text_witness :
  let σ :=
    run freshWriter
      (@serveFile gateway GET (resolved "/ipfs/Qm/cat.png" "Qm")
         (ipfsPath "/ipfs/Qm/cat.png") (unsizedFile jpegBytes) 0) in
  aborted (trace σ) = true ∧
  Header (writer σ) !! "Content-Type" = Some ["text/plain; charset=utf-8"].
Proof.
  intros σ.
  assert (Haborted : aborted (trace σ) = true) by reflexivity.
  split; [exact Haborted|].
  destruct (@error_response_is_plain_text gateway freshWriter GET
              (resolved "/ipfs/Qm/cat.png" "Qm") (ipfsPath "/ipfs/Qm/cat.png")
              (unsizedFile jpegBytes) 0 Haborted)
    as (Htype & _).
  exact Htype.
Defined.

Lemma lookup_by_disposition_name_witness :
  let σ :=
    run freshWriter
      (@serveFile gateway GET (resolved "/ipfs/Qm/cat.png" "Qm")
         (ipfsPath "/ipfs/Qm/cat.png") (regularFile jpegBytes) 0) in
  In (TypeByExtensionCall ".png") (trace σ) ∧
  ".png" = Ext "cat.png".
Proof.
  intros σ.
  assert (Hin : In (TypeByExtensionCall ".png") (trace σ))
    by (do 5 right; left; reflexivity).
  split; [exact Hin|].
  destruct (@lookup_by_disposition_name gateway freshWriter GET
              (resolved "/ipfs/Qm/cat.png" "Qm") (ipfsPath "/ipfs/Qm/cat.png")
              (regularFile jpegBytes) 0)
    as (_ & Hext).
  exact (Hext _ Hin).
Defined.

Lemma adapter_built_from_reported_size_witness :
  let file := regularFile jpegBytes in
  let σ :=
    run freshWriter
      (@serveFile gateway GET (resolved "/ipfs/Qm/cat.png" "Qm")
         (ipfsPath "/ipfs/Qm/cat.png") file 0) in
  In (NewLazySeeker (newLazySeeker 8 file)) (trace σ) ∧
  ∃ sz, Size file = inl sz ∧ size (newLazySeeker 8 file) = sz.
Proof.
  intros file σ.
  assert (Hin : In (NewLazySeeker (newLazySeeker 8 file)) (trace σ))
    by (do 4 right; left; reflexivity).
  split; [exact Hin|].
  destruct (@adapter_built_from_reported_size gateway freshWriter GET
              (resolved "/ipfs/Qm/cat.png" "Qm") (ipfsPath "/ipfs/Qm/cat.png")
              file 0 _ Hin)
    as (sz & Hsize & _ & Hfield & _).
  exists sz. split; [exact Hsize | exact Hfield].
Defined.

Lemma responder_content_provenance_witness :
  let file := regularFile jpegBytes in
  let σ :=
    run freshWriter
      (@serveFile gateway GET (resolved "/ipfs/Qm/cat" "Qm")
         (ipfsPath "/ipfs/Qm/cat") file 0) in
  let w :=
    wrapStatus
      (HeaderSet "Content-Type" "image/jpeg"
         (@afterHeaders gateway freshWriter GET (resolved "/ipfs/Qm/cat" "Qm")
            (ipfsPath "/ipfs/Qm/cat"))) in
  served (trace σ) = Some (w, "cat", 0, newLazySeeker 8 file) ∧
  ∃ mimeType content' pos,
    mimetype_DetectReader (newLazySeeker 8 file) = (inl mimeType, content') ∧
    lazySeeker_Seek content' 0 SeekStart = (inl pos, newLazySeeker 8 file).
Proof.
  intros file σ w.
  assert (Hserved : served (trace σ) = Some (w, "cat", 0, newLazySeeker 8 file))
    by (vm_compute; reflexivity).
  split; [exact Hserved|].
  destruct (@responder_content_provenance gateway freshWriter GET
              (resolved "/ipfs/Qm/cat" "Qm") (ipfsPath "/ipfs/Qm/cat") file 0
              _ _ _ _ Hserved)
    as (sz & Hsize & [(_ & [Hsym|Hext])|(_ & _ & Hsniffed)]).
  - discriminate Hsym.
  - exfalso. apply Hext. reflexivity.
  - injection Hsize as <-. exact Hsniffed.
Defined.
